(** * generate_rag_improvement_doc.py: the document assembler

    A shallow embedding of the script that builds the "Piano di Miglioramento
    RAG Documentale" report with python-docx and saves it.

    - The document is the ordered list of its block-level elements
      (paragraphs and tables), as python-docx keeps them in the body.
    - Python objects handed out by the library (paragraphs, runs, tables,
      cells) are proxies onto elements of the document; they are modelled as
      references (positions) into the one shared body, so that an assignment
      through a reference changes the document itself.
    - The script runs in a state-and-exception monad [Py] over a [World] that
      holds the document under construction, the wall clock, standard output
      and the file system. *)

From Stdlib Require Import ZArith Ascii.
From Stdlib Require QArith.QArith_base.
From stdpp Require Import base option list strings pretty gmap.

Local Open Scope string_scope.
Local Open Scope list_scope.
Local Open Scope nat_scope.

(** ** Data model of the document (python-docx objects) *)

Module Docx.

(** [docx.shared]: lengths are integers counted in English Metric Units. *)
Definition EMUS_PER_INCH : Z := 914400.
Definition EMUS_PER_PT : Z := 12700.

(** [Inches(x)] is [int(x * 914400)]; the literals of the script (0.5 and
    0.25) are exact binary fractions, so the rational product is the float
    product. [int] truncates toward zero. *)
Definition Inches (x : QArith_base.Q) : Z :=
  Z.quot (QArith_base.Qnum x * EMUS_PER_INCH) (Z.pos (QArith_base.Qden x)).

Definition Pt (points : Z) : Z := points * EMUS_PER_PT.

Record RGBColor := mkRGB { rgb_r : Z; rgb_g : Z; rgb_b : Z }.

Inductive WD_ALIGN_PARAGRAPH := LEFT | CENTER | RIGHT | JUSTIFY.

(** A run of text with the character formatting the script touches. [None]
    is python-docx's "inherit from the style". *)
Record Run := mkRun {
  run_text : string;
  run_bold : option bool;
  run_italic : option bool;
  run_size : option Z;
  run_color : option RGBColor
}.

Record Paragraph := mkParagraph {
  par_style : option string;
  par_runs : list Run;
  par_alignment : option WD_ALIGN_PARAGRAPH;
  par_left_indent : option Z
}.

Record Cell := mkCell { cell_paragraphs : list Paragraph }.

Record Table := mkTable {
  tbl_style : option string;
  tbl_rows : list (list Cell)
}.

Inductive Block :=
| BParagraph (p : Paragraph)
| BTable (t : Table).

(** [paragraph.text]: the concatenation of the text of its runs. *)
Definition paragraph_text (p : Paragraph) : string :=
  foldr (λ r acc, run_text r +:+ acc) "" (par_runs p).

Fixpoint join_lines (l : list string) : string :=
  match l with
  | [] => ""
  | [s] => s
  | s :: rest => s +:+ String "010"%char (join_lines rest)
  end.

(** [cell.text]: the text of its paragraphs joined by newlines. *)
Definition cell_text (c : Cell) : string :=
  join_lines (paragraph_text <$> cell_paragraphs c).

Definition empty_paragraph : Paragraph := mkParagraph None [] None None.
Definition plain_run (text : string) : Run := mkRun text None None None None.

(** A paragraph as [add_paragraph] creates it: it gets a run only for a
    text that is not empty ([if text:]). *)
Definition new_paragraph (text : string) (style : option string) : Paragraph :=
  mkParagraph style (if decide (text = "") then [] else [plain_run text]) None None.

Definition with_runs (x : Paragraph) (rs : list Run) : Paragraph :=
  mkParagraph (par_style x) rs (par_alignment x) (par_left_indent x).

(** A cell of a freshly added table holds one empty paragraph. *)
Definition empty_cell : Cell := mkCell [empty_paragraph].

End Docx.
Export Docx.

(** ** The clock: [datetime] and [strftime] *)

Inductive Month :=
| January | February | March | April | May | June
| July | August | September | October | November | December.

Record datetime := mkDatetime {
  dt_year : N; dt_month : Month; dt_day : N; dt_hour : N; dt_minute : N
}.

Definition month_name (m : Month) : string :=
  match m with
  | January => "January" | February => "February" | March => "March"
  | April => "April" | May => "May" | June => "June" | July => "July"
  | August => "August" | September => "September" | October => "October"
  | November => "November" | December => "December"
  end.

Definition month_number (m : Month) : N :=
  match m with
  | January => 1 | February => 2 | March => 3 | April => 4 | May => 5
  | June => 6 | July => 7 | August => 8 | September => 9 | October => 10
  | November => 11 | December => 12
  end%N.

Definition pad2 (n : N) : string :=
  if (n <? 10)%N then "0" +:+ pretty n else pretty n.

(** One conversion of [strftime]; the script uses %B %Y %d %m %H %M. The
    interpreter never calls [setlocale], so %B is the English name. *)
Definition directive (c : ascii) (d : datetime) : string :=
  if decide (c = "B"%char) then month_name (dt_month d)
  else if decide (c = "Y"%char) then pretty (dt_year d)
  else if decide (c = "d"%char) then pad2 (dt_day d)
  else if decide (c = "m"%char) then pad2 (month_number (dt_month d))
  else if decide (c = "H"%char) then pad2 (dt_hour d)
  else if decide (c = "M"%char) then pad2 (dt_minute d)
  else String "%"%char (String c "").

Fixpoint strftime (fmt : string) (d : datetime) : string :=
  match fmt with
  | "" => ""
  | String c rest =>
      if decide (c = "%"%char) then
        match rest with
        | "" => "%"
        | String k rest' => directive k d +:+ strftime rest' d
        end
      else String c (strftime rest d)
  end.

(** ** The world the script runs in *)

(** Exceptions that can surface while the script runs. [InvalidHandle] is
    the model's own: a reference that designates no element of the document,
    which a Python proxy object never is. *)
Inductive exn :=
| IndexError
| ValueError
| OSError (errno : Z)
| PackageError (msg : string)
| InvalidHandle.

(** What a path of the file system holds. *)
Inductive file :=
| DocxFile (content : list Block)
| RawFile (data : string).

(** A file is addressed by its directory and its name. *)
Definition path : Type := string * string.

(** How an attempt to write a file ends: it succeeds, or it raises and
    leaves the target untouched ([None]) or with some partial content. *)
Inductive io_outcome :=
| IoDone
| IoError (e : exn) (residue : option file).

Inductive io_event :=
| IoRead (p : path)
| IoWrite (p : path).

(** Body-level effects on the document, in the order the script performs
    them: an element appended at a position, or the element at a position
    replaced by a changed one through a reference. *)
Inductive event :=
| EvAppend (pos : nat) (b : Block)
| EvMutate (pos : nat) (old new : Block).

Record World := mkWorld {
  w_now : nat → datetime;        (* the k-th reading of the wall clock *)
  w_ticks : nat;                 (* how many readings were taken *)
  w_body : list Block;           (* body of the Document object *)
  w_trace : list event;          (* effects on the body, oldest first *)
  w_stdout : list string;        (* lines printed so far *)
  w_cwd : string;                (* current working directory *)
  w_fs : gmap path file;         (* the file system *)
  w_io : list io_event;          (* file operations performed so far *)
  w_disk : path → io_outcome     (* what the environment lets a write do *)
}.

Definition set_ticks (n : nat) (w : World) : World :=
  mkWorld (w_now w) n (w_body w) (w_trace w) (w_stdout w) (w_cwd w)
          (w_fs w) (w_io w) (w_disk w).
Definition set_document (b : list Block) (t : list event) (w : World) : World :=
  mkWorld (w_now w) (w_ticks w) b t (w_stdout w) (w_cwd w)
          (w_fs w) (w_io w) (w_disk w).
Definition set_stdout (out : list string) (w : World) : World :=
  mkWorld (w_now w) (w_ticks w) (w_body w) (w_trace w) out (w_cwd w)
          (w_fs w) (w_io w) (w_disk w).
Definition set_files (fs : gmap path file) (io : list io_event) (w : World) : World :=
  mkWorld (w_now w) (w_ticks w) (w_body w) (w_trace w) (w_stdout w) (w_cwd w)
          fs io (w_disk w).

(** ** The monad of Python statements: state, and exceptions that unwind *)

Definition Py (A : Type) : Type := World → (exn + A) * World.

Global Instance Py_ret : MRet Py := λ A x w, (inr x, w).

Global Instance Py_bind : MBind Py := λ A B f m w,
  match m w with
  | (inl e, w') => (inl e, w')
  | (inr x, w') => f x w'
  end.

Definition raise {A} (e : exn) : Py A := λ w, (inl e, w).

(** A [for] statement over a list. *)
Fixpoint for_each {A} (l : list A) (body : A → Py unit) : Py unit :=
  match l with
  | [] => mret tt
  | x :: rest => body x ;; for_each rest body
  end.

(** [l[i]] *)
Definition getitem {A} (l : list A) (i : nat) : Py A :=
  match l !! i with
  | Some x => mret x
  | None => raise IndexError
  end.

(** [enumerate(l, start)] *)
Definition enumerate {A} (l : list A) (start : nat) : list (nat * A) :=
  zip (seq start (length l)) l.

Definition print (line : string) : Py unit :=
  λ w, (inr tt, set_stdout (w_stdout w ++ [line]) w).

(** [datetime.now()] *)
Definition datetime_now : Py datetime :=
  λ w, (inr (w_now w (w_ticks w)), set_ticks (S (w_ticks w)) w).

(** ** python-docx: references and the calls the script makes *)

Inductive doc_ref := TheDocument.

Inductive par_ref :=
| InBody (i : nat)
| InCell (t r c k : nat).

Record run_ref := RunRef { rr_par : par_ref; rr_idx : nat }.
Definition tbl_ref : Type := nat.
Record row_ref := RowRef { row_tbl : tbl_ref; row_idx : nat }.
Record cell_ref := CellRef { cr_tbl : tbl_ref; cr_row : nat; cr_col : nat }.

Definition append_block (b : Block) : Py nat :=
  λ w, let i := length (w_body w) in
       (inr i, set_document (w_body w ++ [b]) (w_trace w ++ [EvAppend i b]) w).

Definition read_block (i : nat) : Py Block :=
  λ w, match w_body w !! i with
       | Some b => (inr b, w)
       | None => (inl InvalidHandle, w)
       end.

Definition write_block (i : nat) (b : Block) : Py unit :=
  λ w, match w_body w !! i with
       | Some old =>
           (inr tt, set_document (<[i := b]> (w_body w))
                                 (w_trace w ++ [EvMutate i old b]) w)
       | None => (inl InvalidHandle, w)
       end.

Definition read_table (t : tbl_ref) : Py Table :=
  b ← read_block t;
  match b with
  | BTable tb => mret tb
  | BParagraph _ => raise InvalidHandle
  end.

Definition read_cell (c : cell_ref) : Py Cell :=
  tb ← read_table (cr_tbl c);
  match tbl_rows tb !! cr_row c ≫= (.!! cr_col c) with
  | Some cl => mret cl
  | None => raise InvalidHandle
  end.

Definition write_cell (c : cell_ref) (cl : Cell) : Py unit :=
  tb ← read_table (cr_tbl c);
  write_block (cr_tbl c)
    (BTable (mkTable (tbl_style tb)
               (alter (λ row, <[cr_col c := cl]> row) (cr_row c) (tbl_rows tb)))).

Definition read_par (p : par_ref) : Py Paragraph :=
  match p with
  | InBody i =>
      b ← read_block i;
      match b with
      | BParagraph x => mret x
      | BTable _ => raise InvalidHandle
      end
  | InCell t r c k =>
      cl ← read_cell (CellRef t r c);
      match cell_paragraphs cl !! k with
      | Some x => mret x
      | None => raise InvalidHandle
      end
  end.

Definition write_par (p : par_ref) (x : Paragraph) : Py unit :=
  match p with
  | InBody i => write_block i (BParagraph x)
  | InCell t r c k =>
      cl ← read_cell (CellRef t r c);
      write_cell (CellRef t r c) (mkCell (<[k := x]> (cell_paragraphs cl)))
  end.

Definition modify_par (p : par_ref) (f : Paragraph → Paragraph) : Py unit :=
  x ← read_par p; write_par p (f x).

Definition modify_run (r : run_ref) (f : Run → Run) : Py unit :=
  x ← read_par (rr_par r);
  match par_runs x !! rr_idx r with
  | Some _ => write_par (rr_par r) (with_runs x (alter f (rr_idx r) (par_runs x)))
  | None => raise InvalidHandle
  end.

(** [Document()]: a new document whose body is empty. *)
Definition Document : Py doc_ref :=
  λ w, (inr TheDocument, set_document [] [] w).

(** [doc.add_paragraph(text, style)] *)
Definition add_paragraph (doc : doc_ref) (text : string) (style : option string)
  : Py par_ref :=
  i ← append_block (BParagraph (new_paragraph text style));
  mret (InBody i).

(** [doc.add_heading(text, level)] *)
Definition heading_style (level : Z) : string :=
  if decide (level = 0)%Z then "Title" else "Heading " +:+ pretty level.

Definition add_heading (doc : doc_ref) (text : string) (level : Z) : Py par_ref :=
  if decide (0 ≤ level ≤ 9)%Z then add_paragraph doc text (Some (heading_style level))
  else raise ValueError.

(** [paragraph.add_run(text)] *)
Definition add_run (p : par_ref) (text : string) : Py run_ref :=
  x ← read_par p;
  write_par p (with_runs x (par_runs x ++ [plain_run text]));;
  mret (RunRef p (length (par_runs x))).

(** [paragraph.runs] *)
Definition runs (p : par_ref) : Py (list run_ref) :=
  x ← read_par p; mret (RunRef p <$> seq 0 (length (par_runs x))).

(** [run.bold = v], also reached as [run.font.bold = v] *)
Definition set_bold (r : run_ref) (v : bool) : Py unit :=
  modify_run r (λ u, mkRun (run_text u) (Some v) (run_italic u) (run_size u) (run_color u)).

(** [run.italic = v] *)
Definition set_italic (r : run_ref) (v : bool) : Py unit :=
  modify_run r (λ u, mkRun (run_text u) (run_bold u) (Some v) (run_size u) (run_color u)).

(** [run.font.size = v] *)
Definition set_font_size (r : run_ref) (v : Z) : Py unit :=
  modify_run r (λ u, mkRun (run_text u) (run_bold u) (run_italic u) (Some v) (run_color u)).

(** [run.font.color.rgb = v] *)
Definition set_font_color_rgb (r : run_ref) (v : RGBColor) : Py unit :=
  modify_run r (λ u, mkRun (run_text u) (run_bold u) (run_italic u) (run_size u) (Some v)).

(** [paragraph.alignment = v] *)
Definition set_alignment (p : par_ref) (v : WD_ALIGN_PARAGRAPH) : Py unit :=
  modify_par p (λ x, mkParagraph (par_style x) (par_runs x) (Some v) (par_left_indent x)).

(** [paragraph.paragraph_format.left_indent = v] *)
Definition set_left_indent (p : par_ref) (v : Z) : Py unit :=
  modify_par p (λ x, mkParagraph (par_style x) (par_runs x) (par_alignment x) (Some v)).

(** [doc.add_table(rows, cols)] *)
Definition add_table (doc : doc_ref) (rows cols : nat) : Py tbl_ref :=
  append_block (BTable (mkTable None (replicate rows (replicate cols empty_cell)))).

(** [table.style = name] *)
Definition set_table_style (t : tbl_ref) (name : string) : Py unit :=
  tb ← read_table t; write_block t (BTable (mkTable (Some name) (tbl_rows tb))).

(** [table.rows] *)
Definition rows (t : tbl_ref) : Py (list row_ref) :=
  tb ← read_table t; mret (RowRef t <$> seq 0 (length (tbl_rows tb))).

(** [row.cells] *)
Definition cells (r : row_ref) : Py (list cell_ref) :=
  tb ← read_table (row_tbl r);
  match tbl_rows tb !! row_idx r with
  | Some row => mret (CellRef (row_tbl r) (row_idx r) <$> seq 0 (length row))
  | None => raise InvalidHandle
  end.

(** [cell.text = text]: the content of the cell is replaced by one paragraph
    holding one run with the text. *)
Definition set_cell_text (c : cell_ref) (text : string) : Py unit :=
  _ ← read_cell c;
  write_cell c (mkCell [mkParagraph None [plain_run text] None None]).

(** [cell.paragraphs] *)
Definition paragraphs (c : cell_ref) : Py (list par_ref) :=
  cl ← read_cell c;
  mret (InCell (cr_tbl c) (cr_row c) (cr_col c) <$> seq 0 (length (cell_paragraphs cl))).

(** [doc.save(filename)]: the name is relative, so the file lands in the
    current working directory; an existing file is replaced. *)
Definition save (doc : doc_ref) (filename : string) : Py unit :=
  λ w, let p := (w_cwd w, filename) in
       let io := w_io w ++ [IoWrite p] in
       match w_disk w p with
       | IoDone => (inr tt, set_files (<[p := DocxFile (w_body w)]> (w_fs w)) io w)
       | IoError e None => (inl e, set_files (w_fs w) io w)
       | IoError e (Some f) => (inl e, set_files (<[p := f]> (w_fs w)) io w)
       end.

(** ** The script *)

Module Script.

Definition nl : string := String "010"%char "".

Definition add_heading_with_style (doc : doc_ref) (text : string) (level : Z)
  : Py par_ref :=
  heading ← add_heading doc text level;
  heading_runs ← runs heading;
  first_run ← getitem heading_runs 0;
  set_font_color_rgb first_run (mkRGB 0 51 102);;
  mret heading.

Definition add_phase (doc : doc_ref) (phase_number : Z)
    (title description : string) (activities : list string) : Py unit :=
  (* Phase title *)
  heading ← add_heading_with_style doc
               ("Fase " +:+ pretty phase_number +:+ ": " +:+ title) 2;
  (* Description *)
  desc_para ← add_paragraph doc "" None;
  label ← add_run desc_para "Descrizione: ";
  set_bold label true;;
  add_run desc_para description;;
  (* Activities *)
  add_paragraph doc "Attività principali:" (Some "Heading 3");;
  for_each activities (λ activity,
    p ← add_paragraph doc activity (Some "List Bullet");
    set_left_indent p (Inches (QArith_base.Qmake 1 2)));;
  add_paragraph doc "" None;;
  mret tt.

Definition add_metrics_section (doc : doc_ref) (metrics : list string) : Py unit :=
  add_paragraph doc "Metriche di successo:" (Some "Heading 3");;
  for_each metrics (λ metric,
    p ← add_paragraph doc metric (Some "List Bullet");
    set_left_indent p (Inches (QArith_base.Qmake 1 2)));;
  add_paragraph doc "" None;;
  mret tt.

Definition summary_text : string :=
  "Questo documento delinea un approccio strutturato in fasi per migliorare "
  +:+ "progressivamente il sistema RAG (Retrieval-Augmented Generation) documentale. "
  +:+ "L'obiettivo è ottimizzare la qualità delle risposte, ridurre le allucinazioni, "
  +:+ "migliorare la rilevanza dei risultati e garantire un'esperienza utente eccellente.".

Definition current_features : list string := [
  "Embedding vettoriali per ricerca semantica";
  "Sistema di caching per ottimizzazione prestazioni";
  "Query analysis con HyDE e query rewriting";
  "Reranking con considerazione di diversità (MMR)";
  "Metriche di qualità RAG con RAGAS";
  "Rilevamento di allucinazioni";
  "Verifica delle citazioni";
  "Configurazione modulare per ogni fase RAG"
].

Definition phases_data : list (string * string * string) := [
  ("Fase 1: Ottimizzazione Embeddings", "2-3 settimane", "Alta");
  ("Fase 2: Ricerca Ibrida", "3-4 settimane", "Alta");
  ("Fase 3: Reranking Avanzato", "2-3 settimane", "Media");
  ("Fase 4: Generazione Avanzata", "3-4 settimane", "Alta");
  ("Fase 5: Monitoraggio e QA", "2-3 settimane", "Alta");
  ("Fase 6: Prestazioni e Scalabilità", "2-3 settimane", "Media");
  ("Fase 7: Personalizzazione", "4-5 settimane", "Bassa")
].

Definition best_practices : list string := [
  "Implementare ogni fase in modo incrementale con A/B testing";
  "Validare ogni miglioramento con metriche oggettive prima di procedere";
  "Mantenere sempre una versione stabile in produzione (rollback ready)";
  "Documentare tutte le modifiche e i risultati dei test";
  "Coinvolgere gli utenti finali per feedback qualitativo";
  "Automatizzare il testing per prevenire regressioni";
  "Monitorare costantemente costi e performance";
  "Rivedere periodicamente le priorità in base ai risultati"
].

Definition embedding_tools : list string := [
  "Multilingual-E5-large (per documenti multilingua)";
  "BGE-M3 (per supporto multilingua robusto)";
  "OpenAI text-embedding-3-large (per qualità superiore)"
].

Definition reranking_tools : list string := [
  "Cohere Rerank API";
  "bge-reranker-large";
  "Cross-encoders (sentence-transformers)"
].

Definition vector_db_tools : list string := [
  "Qdrant (attuale, ottimizzare configurazione)";
  "Pinecone (per scalabilità cloud)";
  "Weaviate (per ricerca ibrida avanzata)"
].

Definition monitoring_tools : list string := [
  "LangSmith (per tracing completo LLM)";
  "Prometheus + Grafana (per metriche real-time)";
  "Sentry (per error tracking)";
  "Custom dashboard con Application Insights"
].

Definition conclusion_text : string :=
  "Il miglioramento di un sistema RAG documentale è un processo iterativo che richiede "
  +:+ "attenzione continua e validazione empirica. Le fasi proposte in questo documento "
  +:+ "forniscono una roadmap strutturata per evolvere progressivamente il sistema, "
  +:+ "bilanciando qualità delle risposte, performance, e esperienza utente." +:+ nl +:+ nl
  +:+ "È fondamentale procedere in modo incrementale, validando ogni miglioramento con "
  +:+ "metriche oggettive e feedback degli utenti prima di passare alla fase successiva. "
  +:+ "Il successo a lungo termine dipenderà dalla capacità di monitorare costantemente "
  +:+ "il sistema e adattarsi alle esigenze emergenti degli utenti.".

(** The seven phases, in the order of the calls. *)
Definition improvement_phases (doc : doc_ref) : Py unit :=
  (* Phase 1 *)
  add_phase doc 1
    "Ottimizzazione degli Embeddings"
    "Migliorare la qualità della rappresentazione vettoriale dei documenti per una ricerca semantica più accurata."
    [ "Valutare modelli di embedding alternativi (es. Multilingual-E5, BGE-M3)";
      "Implementare fine-tuning del modello di embedding su documenti specifici del dominio";
      "Ottimizzare il chunking dei documenti (dimensione, overlap, strategie smart)";
      "Implementare chunking semantico basato su struttura del documento";
      "Aggiungere metadati ricchi per ogni chunk (titolo, sezione, keywords)";
      "Validare miglioramenti con metriche di retrieval (MRR, NDCG)" ];;
  add_metrics_section doc [
      "Mean Reciprocal Rank (MRR) > 0.85";
      "Normalized Discounted Cumulative Gain (NDCG) > 0.80";
      "Riduzione del 30% dei casi di recupero non rilevante" ];;
  (* Phase 2 *)
  add_phase doc 2
    "Miglioramento della Ricerca Ibrida"
    "Combinare efficacemente ricerca vettoriale e ricerca testuale per massimizzare la rilevanza."
    [ "Implementare ricerca ibrida con BM25 + Vector Search";
      "Ottimizzare il peso relativo tra ricerca semantica e keyword-based";
      "Aggiungere filtri avanzati (data, tipo documento, autore)";
      "Implementare ricerca multi-hop per query complesse";
      "Abilitare query expansion con sinonimi e termini correlati";
      "Implementare cache semantica per query simili" ];;
  add_metrics_section doc [
      "Precision@5 > 0.90";
      "Recall@10 > 0.85";
      "Tempo medio di risposta < 1.5 secondi" ];;
  (* Phase 3 *)
  add_phase doc 3
    "Reranking Avanzato"
    "Riordinare i risultati recuperati utilizzando modelli più sofisticati per massimizzare la rilevanza."
    [ "Integrare modelli di reranking specializzati (es. Cohere Rerank, bge-reranker)";
      "Implementare reranking cross-encoder per precisione maggiore";
      "Aggiungere pesi temporali per privilegiare documenti recenti";
      "Ottimizzare il parametro MMR Lambda per bilanciamento rilevanza/diversità";
      "Implementare contextual reranking basato su conversazione";
      "A/B testing di diverse strategie di reranking" ];;
  add_metrics_section doc [
      "Miglioramento del 25% nella rilevanza percepita dagli utenti";
      "Riduzione del 40% dei click su risultati non rilevanti";
      "Aumento del 30% del tempo di permanenza sulle risposte" ];;
  (* Phase 4 *)
  add_phase doc 4
    "Generazione e Sintesi Avanzata"
    "Migliorare la qualità della generazione della risposta finale utilizzando tecniche avanzate di prompt engineering e LLM."
    [ "Ottimizzare i prompt di sistema per risposte più accurate e contestuali";
      "Implementare chain-of-thought reasoning per query complesse";
      "Abilitare compressione contestuale per gestire più informazioni";
      "Implementare self-consistency checking (multiple generations + voting)";
      "Aggiungere fact-checking automatico delle risposte generate";
      "Implementare refinement iterativo per risposte di alta qualità";
      "Gestire meglio le citazioni con link diretti ai documenti fonte" ];;
  add_metrics_section doc [
      "Faithfulness score (RAGAS) > 0.90";
      "Answer relevancy score (RAGAS) > 0.85";
      "Riduzione del 50% delle allucinazioni rilevate" ];;
  (* Phase 5 *)
  add_phase doc 5
    "Monitoraggio e Quality Assurance"
    "Implementare un sistema robusto di monitoraggio continuo e miglioramento della qualità."
    [ "Dashboard real-time per metriche RAG (latency, relevance, quality)";
      "Sistema di logging completo per analisi post-mortem";
      "Implementare human-in-the-loop feedback per miglioramento continuo";
      "A/B testing framework per confrontare miglioramenti";
      "Alert automatici per degradazione della qualità";
      "Raccolta e analisi di query fallite per training futuro";
      "Implementare regression testing per prevenire degradazioni" ];;
  add_metrics_section doc [
      "Copertura di monitoring su 100% delle query";
      "Tempo medio di detection dei problemi < 5 minuti";
      "Feedback degli utenti raccolto su almeno il 10% delle query" ];;
  (* Phase 6 *)
  add_phase doc 6
    "Ottimizzazione Prestazioni e Scalabilità"
    "Garantire che il sistema RAG possa gestire un carico crescente mantenendo performance eccellenti."
    [ "Implementare caching multi-livello (query, embeddings, risultati)";
      "Ottimizzare le query al database vettoriale (batch processing, indexing)";
      "Implementare pre-computation degli embeddings per documenti statici";
      "Configurare auto-scaling basato sul carico";
      "Ottimizzare l'utilizzo della memoria e delle risorse GPU/CPU";
      "Implementare rate limiting e throttling intelligente";
      "Load testing e stress testing del sistema" ];;
  add_metrics_section doc [
      "Throughput > 100 query/secondo";
      "P95 latency < 2 secondi";
      "Utilizzo risorse ottimale (CPU < 70%, memoria < 80%)" ];;
  (* Phase 7 *)
  add_phase doc 7
    "Personalizzazione e Context Awareness"
    "Rendere il sistema più intelligente adattandolo al contesto e alle preferenze dell'utente."
    [ "Implementare user profiling per personalizzare i risultati";
      "Context tracking per conversazioni multi-turn più coerenti";
      "Apprendimento dalle interazioni utente (implicit feedback)";
      "Personalizzazione del linguaggio e del tono delle risposte";
      "Supporto multi-lingua con modelli specifici per lingua";
      "Memorizzazione delle preferenze dell'utente";
      "Raccomandazioni proattive basate su query precedenti" ];;
  add_metrics_section doc [
      "Aumento del 40% della soddisfazione utente";
      "Riduzione del 30% delle query di follow-up";
      "Aumento del 25% del tasso di utilizzo ripetuto" ].

(** [create_rag_improvement_document], cut at the comments that head its
    parts in the source; the parts run in this order on the one document. *)

(** Title, subtitle with date, executive summary, current state analysis and
    the heading of the improvement phases. *)
Definition opening_sections (doc : doc_ref) : Py unit :=
  (* Title *)
  title ← add_heading doc "Piano di Miglioramento RAG Documentale" 0;
  set_alignment title CENTER;;
  (* Subtitle with date *)
  subtitle ← add_paragraph doc "" None;
  set_alignment subtitle CENTER;;
  now ← datetime_now;
  run ← add_run subtitle ("Sistema DocN - " +:+ strftime "%B %Y" now);
  set_italic run true;;
  set_font_size run (Pt 12);;
  add_paragraph doc "" None;;
  (* Executive Summary *)
  add_heading_with_style doc "📋 Sommario Esecutivo" 1;;
  add_paragraph doc summary_text None;;
  add_paragraph doc "" None;;
  (* Current State Analysis *)
  add_heading_with_style doc "🔍 Analisi dello Stato Attuale" 1;;
  add_paragraph doc "Il sistema attuale include:" (Some "Heading 3");;
  for_each current_features (λ feature,
    add_paragraph doc ("✓ " +:+ feature) (Some "List Bullet");; mret tt);;
  add_paragraph doc "" None;;
  (* Improvement Phases *)
  add_heading_with_style doc "🎯 Fasi di Miglioramento" 1;;
  mret tt.

(** Implementation timeline: the table. *)
Definition implementation_timeline (doc : doc_ref) : Py unit :=
  add_heading_with_style doc "📅 Timeline di Implementazione Suggerita" 1;;
  timeline_table ← add_table doc 8 3;
  set_table_style timeline_table "Light Grid Accent 1";;
  (* Header *)
  table_rows ← rows timeline_table;
  header_row ← getitem table_rows 0;
  header_cells ← cells header_row;
  (c ← getitem header_cells 0; set_cell_text c "Fase");;
  (c ← getitem header_cells 1; set_cell_text c "Durata Stimata");;
  (c ← getitem header_cells 2; set_cell_text c "Priorità");;
  (* Make header bold *)
  for_each header_cells (λ cell,
    cell_paragraphs ← paragraphs cell;
    for_each cell_paragraphs (λ paragraph,
      paragraph_runs ← runs paragraph;
      for_each paragraph_runs (λ run, set_bold run true)));;
  (* Data *)
  for_each (enumerate phases_data 1) (λ '(i, (phase, duration, priority)),
    table_rows ← rows timeline_table;
    row ← getitem table_rows i;
    row_cells ← cells row;
    (c ← getitem row_cells 0; set_cell_text c phase);;
    (c ← getitem row_cells 1; set_cell_text c duration);;
    (c ← getitem row_cells 2; set_cell_text c priority));;
  add_paragraph doc "" None;;
  mret tt.

(** Best practices, tools and technologies, conclusion and footer. *)
Definition closing_sections (doc : doc_ref) : Py unit :=
  (* Best Practices *)
  add_heading_with_style doc "💡 Best Practices Generali" 1;;
  for_each best_practices (λ practice,
    p ← add_paragraph doc ("• " +:+ practice) None;
    set_left_indent p (Inches (QArith_base.Qmake 1 4)));;
  add_paragraph doc "" None;;
  (* Tools and Technologies *)
  add_heading_with_style doc "🛠️ Strumenti e Tecnologie Consigliate" 1;;
  add_paragraph doc "Embedding Models:" (Some "Heading 3");;
  for_each embedding_tools (λ tool,
    add_paragraph doc tool (Some "List Bullet");; mret tt);;
  add_paragraph doc "Reranking:" (Some "Heading 3");;
  for_each reranking_tools (λ tool,
    add_paragraph doc tool (Some "List Bullet");; mret tt);;
  add_paragraph doc "Vector Databases:" (Some "Heading 3");;
  for_each vector_db_tools (λ tool,
    add_paragraph doc tool (Some "List Bullet");; mret tt);;
  add_paragraph doc "Monitoring:" (Some "Heading 3");;
  for_each monitoring_tools (λ tool,
    add_paragraph doc tool (Some "List Bullet");; mret tt);;
  add_paragraph doc "" None;;
  (* Conclusion *)
  add_heading_with_style doc "🎓 Conclusioni" 1;;
  add_paragraph doc conclusion_text None;;
  add_paragraph doc "" None;;
  (* Footer *)
  footer_para ← add_paragraph doc "" None;
  set_alignment footer_para CENTER;;
  now ← datetime_now;
  footer_run ← add_run footer_para
    ("Documento generato il " +:+ strftime "%d/%m/%Y alle %H:%M" now +:+ nl
     +:+ "Sistema DocN - Archiviazione Documentale con RAG");
  set_italic footer_run true;;
  set_font_size footer_run (Pt 9);;
  set_font_color_rgb footer_run (mkRGB 128 128 128).

Definition create_rag_improvement_document : Py doc_ref :=
  doc ← Document;
  opening_sections doc;;
  improvement_phases doc;;
  implementation_timeline doc;;
  closing_sections doc;;
  mret doc.

Definition output_filename : string := "PIANO_MIGLIORAMENTO_RAG.docx".

Definition main : Py unit :=
  print "Generazione del documento di miglioramento RAG...";;
  doc ← create_rag_improvement_document;
  save doc output_filename;;
  print ("✓ Documento creato con successo: " +:+ output_filename);;
  print "  Il documento contiene 7 fasi dettagliate per migliorare il sistema RAG".

End Script.
Export Script.

(** ** Reading the finished document *)

(** The document a run of [create_rag_improvement_document] leaves behind,
    and the effects the run had on it. *)
Definition built_document (w : World) : list Block :=
  w_body (snd (create_rag_improvement_document w)).

Definition build_trace (w : World) : list event :=
  w_trace (snd (create_rag_improvement_document w)).

Definition has_style (name : string) (b : Block) : bool :=
  match b with
  | BParagraph p => bool_decide (par_style p = Some name)
  | BTable _ => false
  end.

Definition block_text (b : Block) : string :=
  match b with
  | BParagraph p => paragraph_text p
  | BTable _ => ""
  end.

(** The bulleted items a list of blocks starts with. *)
Fixpoint leading_bullets (l : list Block) : list string :=
  match l with
  | [] => []
  | b :: rest =>
      if has_style "List Bullet" b then block_text b :: leading_bullets rest
      else []
  end.

(** The bulleted list that follows the label [label] (a "Heading 3"
    paragraph), looked for up to the next section or phase heading. *)
Fixpoint bullets_under (label : string) (l : list Block) : list string :=
  match l with
  | [] => []
  | b :: rest =>
      if has_style "Heading 1" b || has_style "Heading 2" b then []
      else if has_style "Heading 3" b && bool_decide (block_text b = label)
           then leading_bullets rest
           else bullets_under label rest
  end.

Record phase_section := mkPhaseSection {
  ps_heading : string;
  ps_activities : list string;
  ps_metrics : list string
}.

(** A phase section starts at each "Heading 2" paragraph. *)
Fixpoint phase_sections (l : list Block) : list phase_section :=
  match l with
  | [] => []
  | b :: rest =>
      if has_style "Heading 2" b then
        mkPhaseSection (block_text b)
                       (bullets_under "Attività principali:" rest)
                       (bullets_under "Metriche di successo:" rest)
        :: phase_sections rest
      else phase_sections rest
  end.

(** The paragraphs [add_heading_with_style] is used for: levels 1 and 2. *)
Fixpoint styled_headings (l : list Block) : list Paragraph :=
  match l with
  | [] => []
  | b :: rest =>
      match b with
      | BParagraph p =>
          if has_style "Heading 1" b || has_style "Heading 2" b
          then p :: styled_headings rest else styled_headings rest
      | BTable _ => styled_headings rest
      end
  end.

Fixpoint tables (l : list Block) : list Table :=
  match l with
  | [] => []
  | BTable t :: rest => t :: tables rest
  | BParagraph _ :: rest => tables rest
  end.

(** The rows of the timeline table: the document's first table. *)
Definition timeline_rows (l : list Block) : list (list Cell) :=
  match tables l with
  | t :: _ => tbl_rows t
  | [] => []
  end.

Definition row_texts (row : list Cell) : list string := cell_text <$> row.

Definition cell_runs (c : Cell) : list Run :=
  cell_paragraphs c ≫= par_runs.

(** ** The blocks the helpers append *)

Definition heading_colour : RGBColor := mkRGB 0 51 102.

(** A heading as [add_heading_with_style] leaves it. *)
Definition styled_heading (text : string) (level : Z) : Paragraph :=
  mkParagraph (Some (heading_style level))
              [mkRun text None None None (Some heading_colour)] None None.

Definition bullet_paragraph (text : string) (indent : option Z) : Paragraph :=
  mkParagraph (Some "List Bullet")
              (if decide (text = "") then [] else [plain_run text]) None indent.

Definition half_inch : Z := Inches (QArith_base.Qmake 1 2).

Definition bullets (items : list string) : list Block :=
  (λ item, BParagraph (bullet_paragraph item (Some half_inch))) <$> items.

Definition spacer : Block := BParagraph (new_paragraph "" None).

(** The blocks one call of [add_metrics_section] appends. *)
Definition metrics_blocks (metrics : list string) : list Block :=
  BParagraph (new_paragraph "Metriche di successo:" (Some "Heading 3"))
  :: bullets metrics ++ [spacer].

(** The blocks one call of [add_phase] appends. *)
Definition phase_blocks (phase_number : Z) (title description : string)
    (activities : list string) : list Block :=
  BParagraph (styled_heading ("Fase " +:+ pretty phase_number +:+ ": " +:+ title) 2)
  :: BParagraph (mkParagraph None
       [mkRun "Descrizione: " (Some true) None None None; plain_run description]
       None None)
  :: BParagraph (new_paragraph "Attività principali:" (Some "Heading 3"))
  :: bullets activities ++ [spacer].

(** The sizes (activities, metrics) of the phase sections found in a list
    of blocks. *)
Definition section_sizes (l : list Block) : list (nat * nat) :=
  (λ s, (length (ps_activities s), length (ps_metrics s))) <$> phase_sections l.

(** A statement sequence that, from any document, returns normally, only
    appends blocks, and whose blocks read back as phase sections of the
    sizes [sizes], whatever follows them. *)
Definition adds_sections (m : Py unit) (sizes : list (nat * nat)) : Prop :=
  ∀ w, ∃ blocks tr,
    m w = (inr tt, set_document (w_body w ++ blocks) (w_trace w ++ tr) w)
    ∧ ∀ rest, section_sizes (blocks ++ rest) = sizes ++ section_sizes rest.

(** ** The trace of a build *)

(** How many elements a trace appends. *)
Fixpoint appended (tr : list event) : nat :=
  match tr with
  | [] => 0
  | EvAppend _ _ :: rest => S (appended rest)
  | EvMutate _ _ _ :: rest => appended rest
  end.

(** The body a trace leads to, from a given body. *)
Fixpoint replay (tr : list event) (body : list Block) : list Block :=
  match tr with
  | [] => body
  | EvAppend _ b :: rest => replay rest (body ++ [b])
  | EvMutate pos _ new :: rest => replay rest (<[pos := new]> body)
  end.

(** The discipline of the script, checked along a trace that starts when
    [n] elements exist: an element is appended at the end, and only the
    last element is ever changed. *)
Fixpoint disciplined (n : nat) (tr : list event) : bool :=
  match tr with
  | [] => true
  | EvAppend pos _ :: rest => bool_decide (pos = n) && disciplined (S n) rest
  | EvMutate pos _ _ :: rest => bool_decide (S pos = n) && disciplined n rest
  end.

(** ** Tidy statement sequences *)

(** No event of the trace changes one of the first [n] elements. *)
Definition leaves_alone (n : nat) (tr : list event) : bool :=
  forallb (λ e, match e with
                | EvAppend _ _ => true
                | EvMutate pos _ _ => bool_decide (n ≤ pos)
                end) tr.

(** A trace that, started when [n] elements exist, keeps the discipline,
    appends [k] elements and changes none of the [n] elements it found. *)
Definition tidy_trace (n : nat) (tr : list event) (k : nat) : Prop :=
  disciplined n tr = true ∧ appended tr = k ∧ leaves_alone n tr = true.

(** A statement sequence that, from any document, returns normally, leaves
    the blocks it found as they are, appends [blocks], and on its way only
    appends at the end or changes the last element. *)
Definition appends_tidily {A} (m : Py A) (blocks : list Block) : Prop :=
  ∀ w, ∃ x tr,
    m w = (inr x, set_document (w_body w ++ blocks) (w_trace w ++ tr) w)
    ∧ tidy_trace (length (w_body w)) tr (length blocks).

(** ** What a run of [main] leaves behind *)

(** The line that opens every run, and the lines that confirm a saved
    document. *)
Definition progress_line : string :=
  "Generazione del documento di miglioramento RAG...".

Definition confirmation_lines : list string :=
  [ "✓ Documento creato con successo: PIANO_MIGLIORAMENTO_RAG.docx";
    "  Il documento contiene 7 fasi dettagliate per migliorare il sistema RAG" ].

(** The world after a build that started in [w]. *)
Definition after_build (w : World) : World :=
  mkWorld (w_now w) (S (S (w_ticks w))) (built_document w) (build_trace w)
          (w_stdout w) (w_cwd w) (w_fs w) (w_io w) (w_disk w).

(** ** Example worlds *)

(** A world to run examples in: an empty disk that accepts every write. *)
Definition w0 : World :=
  mkWorld (λ k, mkDatetime 2026 November 3 9 (5 + N.of_nat k)) 0 [] [] []
          "/srv/docn" ∅ [] (λ _, IoDone).

(** A world whose disk already holds an older report and another file. *)
Definition w_home : World :=
  mkWorld (λ k, mkDatetime 2025 March 9 23 (58 + N.of_nat k)) 4 [] []
          ["$ python3 generate_rag_improvement_doc.py"] "/home/anna"
          (<[("/home/anna", "PIANO_MIGLIORAMENTO_RAG.docx") := RawFile "old report"]>
             (<[("/home/anna", "notes.txt") := RawFile "keep me"]> ∅))
          [] (λ _, IoDone).

(** A world whose working directory refuses the write (EACCES). *)
Definition w_readonly : World :=
  mkWorld (λ k, mkDatetime 2026 November 3 9 (5 + N.of_nat k)) 0 [] [] []
          "/usr/share/doc" ∅ [] (λ _, IoError (OSError 13) None).

(** ** The fixed frame of the document *)

Definition subtitle_block (month_year : string) : Block :=
  BParagraph (mkParagraph None
    [mkRun ("Sistema DocN - " +:+ month_year) None (Some true) (Some (Pt 12)) None]
    (Some CENTER) None).

Definition footer_block (date_time : string) : Block :=
  BParagraph (mkParagraph None
    [mkRun ("Documento generato il " +:+ date_time +:+ nl
            +:+ "Sistema DocN - Archiviazione Documentale con RAG")
           None (Some true) (Some (Pt 9)) (Some (mkRGB 128 128 128))]
    (Some CENTER) None).

(** The document of one reference run; the frame keeps everything of it but
    the subtitle (position 1) and the footer (position 162). *)
Definition reference_document : list Block := built_document w0.

Definition frame_head : list Block := take 1 reference_document.
Definition frame_middle : list Block := take 160 (drop 2 reference_document).

Definition document_frame (month_year date_time : string) : list Block :=
  frame_head ++ subtitle_block month_year :: frame_middle ++ [footer_block date_time].

(** The two strings a run embeds: the readings of the clock, formatted. *)
Definition month_year_stamp (w : World) : string :=
  strftime "%B %Y" (w_now w (w_ticks w)).
Definition date_time_stamp (w : World) : string :=
  strftime "%d/%m/%Y alle %H:%M" (w_now w (S (w_ticks w))).

(** ** The monad and the library calls, step by step *)

Lemma bind_inr {A B} (m : Py A) (k : A → Py B) w x w' :
  m w = (inr x, w') → (m ≫= k) w = k x w'.
Proof. intros H. unfold mbind, Py_bind. by rewrite H. Qed.

Lemma bind_inl {A B} (m : Py A) (k : A → Py B) w e w' :
  m w = (inl e, w') → (m ≫= k) w = (inl e, w').
Proof. intros H. unfold mbind, Py_bind. by rewrite H. Qed.

Lemma lookup_last {A} (l : list A) (x : A) : (l ++ [x]) !! length l = Some x.
Proof. by apply list_lookup_middle. Qed.

Lemma insert_last {A} (l : list A) (x y : A) : <[length l := y]> (l ++ [x]) = l ++ [y].
Proof. induction l as [| a l IH]; simpl; [done | by rewrite IH]. Qed.

Lemma read_block_last w body b :
  w_body w = body ++ [b] → read_block (length body) w = (inr b, w).
Proof. intros H. unfold read_block. by rewrite H, lookup_last. Qed.

Lemma write_block_last w body b b' :
  w_body w = body ++ [b] →
  write_block (length body) b' w
  = (inr tt, set_document (body ++ [b'])
                          (w_trace w ++ [EvMutate (length body) b b']) w).
Proof. intros H. unfold write_block. by rewrite H, lookup_last, insert_last. Qed.

Ltac py_unfold := unfold mbind, Py_bind, mret, Py_ret, raise; cbv beta iota.

Lemma modify_last_par w body x f :
  w_body w = body ++ [BParagraph x] →
  modify_par (InBody (length body)) f w
  = (inr tt, set_document (body ++ [BParagraph (f x)])
       (w_trace w ++ [EvMutate (length body) (BParagraph x) (BParagraph (f x))]) w).
Proof.
  intros H. unfold modify_par, read_par, write_par. py_unfold.
  rewrite (read_block_last w body _ H). cbv beta iota.
  by rewrite (write_block_last w body _ _ H).
Qed.

Lemma modify_last_run w body x f r :
  w_body w = body ++ [BParagraph x] →
  is_Some (par_runs x !! r) →
  modify_run (RunRef (InBody (length body)) r) f w
  = (inr tt,
     let x' := mkParagraph (par_style x) (alter f r (par_runs x))
                           (par_alignment x) (par_left_indent x) in
     set_document (body ++ [BParagraph x'])
       (w_trace w ++ [EvMutate (length body) (BParagraph x) (BParagraph x')]) w).
Proof.
  intros H [u Hu]. unfold modify_run, read_par, write_par. simpl rr_par. simpl rr_idx. py_unfold.
  rewrite (read_block_last w body _ H). cbv beta iota. rewrite Hu.
  by rewrite (write_block_last w body _ _ H).
Qed.

Lemma indented_bullet doc text v w :
  (p ← add_paragraph doc text (Some "List Bullet"); set_left_indent p v) w
  = (inr tt,
     set_document (w_body w ++ [BParagraph (bullet_paragraph text (Some v))])
       (w_trace w ++
          [EvAppend (length (w_body w)) (BParagraph (bullet_paragraph text None));
           EvMutate (length (w_body w)) (BParagraph (bullet_paragraph text None))
                    (BParagraph (bullet_paragraph text (Some v)))]) w).
Proof.
  unfold add_paragraph, set_left_indent. py_unfold. unfold append_block. cbv beta iota zeta.
  erewrite modify_last_par by reflexivity.
  simpl. by rewrite <- app_assoc.
Qed.

Lemma add_paragraph_eq doc text style w :
  add_paragraph doc text style w
  = (inr (InBody (length (w_body w))),
     set_document (w_body w ++ [BParagraph (new_paragraph text style)])
       (w_trace w ++ [EvAppend (length (w_body w))
                               (BParagraph (new_paragraph text style))]) w).
Proof. reflexivity. Qed.

Lemma indented_bullets doc items v w :
  ∃ tr,
    for_each items (λ item,
      p ← add_paragraph doc item (Some "List Bullet"); set_left_indent p v) w
    = (inr tt,
       set_document
         (w_body w ++ ((λ item, BParagraph (bullet_paragraph item (Some v))) <$> items))
         (w_trace w ++ tr) w).
Proof.
  revert w. induction items as [| item items IH]; intros w.
  - exists []. destruct w. simpl. unfold set_document. simpl. by rewrite !app_nil_r.
  - simpl for_each.
    destruct (IH (set_document
                    (w_body w ++ [BParagraph (bullet_paragraph item (Some v))])
       (w_trace w ++
          [EvAppend (length (w_body w)) (BParagraph (bullet_paragraph item None));
           EvMutate (length (w_body w)) (BParagraph (bullet_paragraph item None))
                    (BParagraph (bullet_paragraph item (Some v)))]) w)) as [tr Htr].
    eexists.
    unfold mbind at 1. unfold Py_bind at 1.
    rewrite indented_bullet. rewrite Htr. simpl.
    rewrite <- !app_assoc. reflexivity.
Qed.

Lemma add_heading_with_style_spec doc text level w :
  text ≠ "" → (0 ≤ level ≤ 9)%Z →
  add_heading_with_style doc text level w
  = (inr (InBody (length (w_body w))),
     set_document (w_body w ++ [BParagraph (styled_heading text level)])
       (w_trace w ++
          [EvAppend (length (w_body w))
                    (BParagraph (new_paragraph text (Some (heading_style level))));
           EvMutate (length (w_body w))
                    (BParagraph (new_paragraph text (Some (heading_style level))))
                    (BParagraph (styled_heading text level))]) w).
Proof.
  intros Htext Hlevel.
  unfold add_heading_with_style, add_heading. rewrite (decide_True _ _ Hlevel).
  py_unfold. rewrite add_paragraph_eq. cbv beta iota.
  unfold runs, read_par. py_unfold.
  erewrite read_block_last by reflexivity. cbv beta iota.
  unfold new_paragraph. rewrite (decide_False _ _ Htext). simpl par_runs.
  unfold getitem. simpl (_ !! _). py_unfold.
  unfold set_font_color_rgb.
  erewrite modify_last_run; [| reflexivity | by eexists].
  simpl. by rewrite <- app_assoc.
Qed.

(** With an empty text the heading has no run and [runs[0]] raises. *)
Lemma add_heading_with_style_empty doc level w :
  (0 ≤ level ≤ 9)%Z →
  fst (add_heading_with_style doc "" level w) = inl IndexError.
Proof.
  intros Hlevel.
  unfold add_heading_with_style, add_heading. rewrite (decide_True _ _ Hlevel).
  py_unfold. rewrite add_paragraph_eq. cbv beta iota.
  unfold runs, read_par. py_unfold.
  erewrite read_block_last by reflexivity. reflexivity.
Qed.

Lemma add_metrics_section_spec doc metrics w :
  ∃ tr,
    add_metrics_section doc metrics w
    = (inr tt, set_document (w_body w ++ metrics_blocks metrics) (w_trace w ++ tr) w).
Proof.
  unfold add_metrics_section.
  erewrite bind_inr by apply add_paragraph_eq.
  edestruct (indented_bullets doc metrics half_inch) as [tr Htr].
  erewrite bind_inr by apply Htr.
  erewrite bind_inr by apply add_paragraph_eq.
  eexists. unfold mret, Py_ret, metrics_blocks, bullets, spacer. simpl.
  rewrite <- !app_assoc. simpl. reflexivity.
Qed.

Lemma w_body_set B T w : w_body (set_document B T w) = B.
Proof. reflexivity. Qed.
Lemma w_trace_set B T w : w_trace (set_document B T w) = T.
Proof. reflexivity. Qed.
Lemma set_document_twice B T B' T' w :
  set_document B' T' (set_document B T w) = set_document B' T' w.
Proof. reflexivity. Qed.

Create Rewrite HintDb py.
#[local] Hint Rewrite w_body_set w_trace_set set_document_twice : py.

Lemma add_run_last w body x text :
  w_body w = body ++ [BParagraph x] →
  add_run (InBody (length body)) text w
  = (inr (RunRef (InBody (length body)) (length (par_runs x))),
     set_document (body ++ [BParagraph (with_runs x (par_runs x ++ [plain_run text]))])
       (w_trace w ++ [EvMutate (length body) (BParagraph x)
            (BParagraph (with_runs x (par_runs x ++ [plain_run text])))]) w).
Proof.
  intros H. unfold add_run, read_par, write_par. py_unfold.
  rewrite (read_block_last w body _ H). cbv beta iota.
  by rewrite (write_block_last w body _ _ H).
Qed.

Ltac py_step L :=
  (erewrite bind_inr by (apply L; try reflexivity)); autorewrite with py.

Lemma add_phase_spec doc phase_number title description activities w :
  ∃ tr,
    add_phase doc phase_number title description activities w
    = (inr tt,
       set_document (w_body w ++ phase_blocks phase_number title description activities)
                    (w_trace w ++ tr) w).
Proof.
  unfold add_phase.
  erewrite bind_inr; cycle 1.
  { apply add_heading_with_style_spec; [discriminate | lia]. }
  py_step add_paragraph_eq.
  py_step add_run_last.
  erewrite bind_inr; cycle 1.
  { unfold set_bold. apply modify_last_run; [reflexivity | by eexists]. }
  autorewrite with py.
  py_step add_run_last.
  py_step add_paragraph_eq.
  edestruct (indented_bullets doc activities half_inch) as [tr Htr].
  erewrite bind_inr by apply Htr. autorewrite with py.
  py_step add_paragraph_eq.
  eexists. unfold mret, Py_ret, phase_blocks, bullets, spacer.
  rewrite <- !app_assoc. simpl. reflexivity.
Qed.

(** *** Reading a phase back from the blocks the helpers append *)

Lemma append_empty (s : string) : s +:+ "" = s.
Proof.
  induction s as [| c s IH]; [done |].
  change (String c (s +:+ "") = String c s). by rewrite IH.
Qed.

Lemma bullet_text item indent :
  block_text (BParagraph (bullet_paragraph item indent)) = item.
Proof.
  unfold block_text, paragraph_text, bullet_paragraph. simpl.
  destruct (decide (item = "")) as [-> | _]; simpl; [done | apply append_empty].
Qed.

Lemma bullet_style name item indent :
  has_style name (BParagraph (bullet_paragraph item indent))
  = bool_decide (Some "List Bullet" = Some name).
Proof. reflexivity. Qed.

Lemma leading_bullets_app items rest :
  leading_bullets (bullets items ++ rest) = items ++ leading_bullets rest.
Proof.
  induction items as [| item items IH]; [done |].
  unfold bullets in *. rewrite fmap_cons, <- app_comm_cons.
  cbn [leading_bullets]. rewrite bullet_style, bullet_text, IH.
  reflexivity.
Qed.

Lemma bullets_under_app label items rest :
  bullets_under label (bullets items ++ rest) = bullets_under label rest.
Proof.
  induction items as [| item items IH]; [done |].
  unfold bullets in *. rewrite fmap_cons, <- app_comm_cons.
  cbn [bullets_under]. rewrite !bullet_style, IH. reflexivity.
Qed.

Lemma phase_sections_app items rest :
  phase_sections (bullets items ++ rest) = phase_sections rest.
Proof.
  induction items as [| item items IH]; [done |].
  unfold bullets in *. rewrite fmap_cons, <- app_comm_cons.
  cbn [phase_sections]. rewrite bullet_style, IH. reflexivity.
Qed.

Lemma phase_sections_skip b rest :
  has_style "Heading 2" b = false → phase_sections (b :: rest) = phase_sections rest.
Proof. intros H. cbn [phase_sections]. by rewrite H. Qed.

Lemma bullets_under_skip label b rest :
  has_style "Heading 1" b = false → has_style "Heading 2" b = false →
  has_style "Heading 3" b = false ∨ block_text b ≠ label →
  bullets_under label (b :: rest) = bullets_under label rest.
Proof.
  intros H1 H2 H3. cbn [bullets_under]. rewrite H1, H2. cbn [orb].
  destruct H3 as [-> | Hne]; [done |].
  by rewrite (bool_decide_eq_false_2 _ Hne), andb_false_r.
Qed.

Lemma bullets_under_hit label b rest :
  has_style "Heading 1" b = false → has_style "Heading 2" b = false →
  has_style "Heading 3" b = true → block_text b = label →
  bullets_under label (b :: rest) = leading_bullets rest.
Proof.
  intros H1 H2 H3 Htext. cbn [bullets_under]. rewrite H1, H2, H3. cbn [orb andb].
  by rewrite (bool_decide_eq_true_2 _ Htext).
Qed.

Lemma leading_bullets_stop b rest :
  has_style "List Bullet" b = false → leading_bullets (b :: rest) = [].
Proof. intros H. cbn [leading_bullets]. by rewrite H. Qed.

(** Facts about the style and text of a concrete block. *)
Ltac block_fact :=
  first [ reflexivity
        | vm_compute; reflexivity
        | left; vm_compute; reflexivity
        | right; vm_compute; discriminate ].

Lemma phase_read_back phase_number title description activities metrics rest :
  phase_sections (phase_blocks phase_number title description activities
                  ++ metrics_blocks metrics ++ rest)
  = mkPhaseSection ("Fase " +:+ pretty phase_number +:+ ": " +:+ title)
                   activities metrics
    :: phase_sections rest.
Proof.
  unfold phase_blocks, metrics_blocks, spacer.
  rewrite <- !app_comm_cons, <- !app_assoc, <- !app_comm_cons.
  cbn [app].
  set (heading := "Fase " +:+ pretty phase_number +:+ ": " +:+ title).
  change (phase_sections (BParagraph (styled_heading heading 2) :: ?l))
    with (mkPhaseSection (block_text (BParagraph (styled_heading heading 2)))
            (bullets_under "Attività principali:" l)
            (bullets_under "Metriche di successo:" l) :: phase_sections l).
  f_equal.
  - f_equal.
    + apply append_empty.
    + rewrite bullets_under_skip by block_fact.
      rewrite bullets_under_hit by block_fact.
      rewrite leading_bullets_app, leading_bullets_stop by block_fact.
      apply app_nil_r.
    + rewrite bullets_under_skip by block_fact.
      rewrite bullets_under_skip by block_fact.
      rewrite bullets_under_app.
      rewrite bullets_under_skip by block_fact.
      rewrite bullets_under_hit by block_fact.
      rewrite leading_bullets_app, leading_bullets_stop by block_fact.
      apply app_nil_r.
  - rewrite !phase_sections_skip by block_fact.
    rewrite phase_sections_app.
    rewrite !phase_sections_skip by block_fact.
    rewrite phase_sections_app.
    by rewrite phase_sections_skip by block_fact.
Qed.

(** A phase and its metrics, from any document: the run succeeds, only
    appends, and the appended blocks read back as one phase section holding
    the lists that were passed. *)
Lemma phase_with_metrics doc phase_number title description activities metrics w :
  ∃ blocks tr,
    (add_phase doc phase_number title description activities;;
     add_metrics_section doc metrics) w
    = (inr tt, set_document (w_body w ++ blocks) (w_trace w ++ tr) w)
    ∧ phase_sections blocks
      = [mkPhaseSection ("Fase " +:+ pretty phase_number +:+ ": " +:+ title)
                        activities metrics].
Proof.
  destruct (add_phase_spec doc phase_number title description activities w)
    as [tr1 H1].
  edestruct (add_metrics_section_spec doc metrics) as [tr2 H2].
  exists (phase_blocks phase_number title description activities
          ++ metrics_blocks metrics), (tr1 ++ tr2).
  split.
  - erewrite bind_inr by apply H1. rewrite H2. autorewrite with py.
    by rewrite <- !app_assoc.
  - rewrite <- (app_nil_r (metrics_blocks metrics)).
    by rewrite phase_read_back.
Qed.

(** *** The phases, composed *)

Lemma section_sizes_phase n title description activities metrics rest :
  section_sizes (phase_blocks n title description activities
                 ++ metrics_blocks metrics ++ rest)
  = (length activities, length metrics) :: section_sizes rest.
Proof. unfold section_sizes. by rewrite phase_read_back. Qed.

Lemma adds_sections_phase doc n title description activities metrics :
  adds_sections (add_phase doc n title description activities;;
                 add_metrics_section doc metrics)
                [(length activities, length metrics)].
Proof.
  intros w.
  destruct (add_phase_spec doc n title description activities w) as [tr1 H1].
  edestruct (add_metrics_section_spec doc metrics) as [tr2 H2].
  exists (phase_blocks n title description activities ++ metrics_blocks metrics),
         (tr1 ++ tr2).
  split.
  - erewrite bind_inr by apply H1. rewrite H2. autorewrite with py.
    by rewrite <- !app_assoc.
  - intros rest. by rewrite <- app_assoc, section_sizes_phase.
Qed.

Lemma adds_sections_phase_then doc n title description activities metrics
    (next : Py unit) sizes :
  adds_sections next sizes →
  adds_sections (add_phase doc n title description activities;;
                 add_metrics_section doc metrics;; next)
                ((length activities, length metrics) :: sizes).
Proof.
  intros Hnext w.
  destruct (add_phase_spec doc n title description activities w) as [tr1 H1].
  edestruct (add_metrics_section_spec doc metrics) as [tr2 H2].
  edestruct Hnext as (blocks & tr3 & H3 & Hsizes).
  exists (phase_blocks n title description activities ++ metrics_blocks metrics
          ++ blocks), (tr1 ++ tr2 ++ tr3).
  split.
  - erewrite bind_inr by apply H1. erewrite bind_inr by apply H2.
    rewrite H3. autorewrite with py. by rewrite <- !app_assoc.
  - intros rest. by rewrite <- !app_assoc, section_sizes_phase, Hsizes.
Qed.

(** The seven phases, from any document: seven sections are appended, of
    6, 6, 6, 7, 7, 7, 7 activities and 3 metrics each. *)
Lemma improvement_phases_sections doc :
  adds_sections (improvement_phases doc)
    [(6, 3); (6, 3); (6, 3); (7, 3); (7, 3); (7, 3); (7, 3)].
Proof.
  assert (∃ sizes, adds_sections (improvement_phases doc) sizes
                   ∧ sizes = [(6, 3); (6, 3); (6, 3); (7, 3); (7, 3); (7, 3); (7, 3)])
    as (sizes & Hsections & <-); [| exact Hsections].
  eexists. split.
  - unfold improvement_phases.
    do 6 eapply adds_sections_phase_then. eapply adds_sections_phase.
  - reflexivity.
Qed.

(** ** Whole-program facts read off the finished document *)

(** The build never raises, whatever the world it starts in. *)
Lemma create_succeeds (w : World) :
  fst (create_rag_improvement_document w) = inr TheDocument.
Proof. vm_compute. reflexivity. Qed.

(** C1: in every run of [create_rag_improvement_document] the finished
    document has seven phase sections; each has a non-empty list of
    activities and a non-empty list of metrics, and the activity lists have
    6, 6, 6, 7, 7, 7, 7 items for phases 1 to 7. *)
Theorem phase_sections_activities_and_metrics (w : World) :
  let sections := phase_sections (built_document w) in
  length sections = 7
  ∧ (λ s, length (ps_activities s)) <$> sections = [6; 6; 6; 7; 7; 7; 7]
  ∧ Forall (λ s, ps_activities s ≠ [] ∧ ps_metrics s ≠ []) sections.
Proof.
  cbv zeta.
  assert (Hshape :
    (λ s, (length (ps_activities s), length (ps_metrics s)))
      <$> phase_sections (built_document w)
    = [(6, 3); (6, 3); (6, 3); (7, 3); (7, 3); (7, 3); (7, 3)])
    by (vm_compute; reflexivity).
  split; [pose proof (f_equal length Hshape) as Hlen;
          by rewrite length_fmap in Hlen |].
  split; [vm_compute; reflexivity |].
  revert Hshape. generalize (phase_sections (built_document w)) as secs.
  intros secs Hshape.
  apply Forall_forall. intros s Hs.
  assert (Hin : (length (ps_activities s), length (ps_metrics s))
                ∈ [(6, 3); (6, 3); (6, 3); (7, 3); (7, 3); (7, 3); (7, 3)]).
  { rewrite <- Hshape.
    exact (list_elem_of_fmap_2
             (λ s, (length (ps_activities s), length (ps_metrics s))) secs s Hs). }
  split; intros Hnil; rewrite Hnil in Hin; simpl in Hin;
    repeat (apply elem_of_cons in Hin as [Hin | Hin]; [discriminate Hin |]);
    by apply elem_of_nil in Hin.
Qed.

Lemma Forall_through_fmap {A B} (f : A → B) (P : B → Prop) (l : list A) (l' : list B) :
  f <$> l = l' → Forall P l' → Forall (λ x, P (f x)) l.
Proof.
  intros <-. induction l as [| x l IH]; intros H; [constructor |].
  rewrite fmap_cons in H. apply Forall_cons in H as [Hx Hl].
  constructor; [exact Hx | by apply IH].
Qed.

(** C9: each of the seven metrics lists has exactly three items: the
    finished document has seven phase sections and every one of them shows
    three bullets under "Metriche di successo:". *)
Theorem metrics_lists_have_three_items (w : World) :
  length (phase_sections (built_document w)) = 7
  ∧ Forall (λ s, length (ps_metrics s) = 3) (phase_sections (built_document w)).
Proof.
  split; [vm_compute; reflexivity |].
  apply (Forall_through_fmap (λ s, length (ps_metrics s)) (λ n, n = 3)
           (phase_sections (built_document w)) [3; 3; 3; 3; 3; 3; 3]).
  - vm_compute. reflexivity.
  - repeat constructor.
Qed.

(** C2: the timeline table is the only table of the document; it has 8 rows
    of 3 cells; the cells of row 0 read "Fase", "Durata Stimata",
    "Priorità"; and each of them has a run of text, all of whose runs are
    bold. *)
Theorem timeline_table_shape_and_header (w : World) :
  let table := timeline_rows (built_document w) in
  length (tables (built_document w)) = 1
  ∧ length table = 8
  ∧ Forall (λ row, length row = 3) table
  ∧ ∃ header,
      table !! 0 = Some header
      ∧ row_texts header = ["Fase"; "Durata Stimata"; "Priorità"]
      ∧ Forall (λ c, cell_runs c ≠ []
                     ∧ Forall (λ r, run_bold r = Some true) (cell_runs c))
               header.
Proof.
  cbv zeta.
  split; [vm_compute; reflexivity |].
  split; [vm_compute; reflexivity |].
  split.
  - assert (Hw : length <$> timeline_rows (built_document w)
                 = [3; 3; 3; 3; 3; 3; 3; 3]) by (vm_compute; reflexivity).
    revert Hw. generalize (timeline_rows (built_document w)) as table.
    intros table Hw. apply Forall_forall. intros row Hrow.
    apply (list_elem_of_fmap_2 length) in Hrow. rewrite Hw in Hrow.
    repeat (apply elem_of_cons in Hrow as [Hrow | Hrow]; [exact Hrow |]).
    by apply elem_of_nil in Hrow.
  - eexists. split; [vm_compute; reflexivity |].
    split; [reflexivity |].
    repeat (apply Forall_cons; split;
            [split; [discriminate | repeat constructor] |]).
    apply Forall_nil_2.
Qed.

(** C10: for every i from 1 to 7, row i of the timeline table holds the
    i-th entry of [phases_data] (name, duration, priority), its first cell
    begins with "Fase i", and the i-th phase section of the document is the
    one headed "Fase i:"; there are as many data rows as phase sections. *)
Theorem timeline_rows_follow_phases_data (w : World) (i : nat) :
  1 ≤ i ≤ 7 →
  ∃ name duration priority heading,
    phases_data !! (i - 1) = Some (name, duration, priority)
    ∧ row_texts <$> timeline_rows (built_document w) !! i
      = Some [name; duration; priority]
    ∧ String.prefix ("Fase " +:+ pretty i) name = true
    ∧ ps_heading <$> phase_sections (built_document w) !! (i - 1) = Some heading
    ∧ String.prefix ("Fase " +:+ pretty i +:+ ":") heading = true
    ∧ length (timeline_rows (built_document w))
      = S (length (phase_sections (built_document w))).
Proof.
  intros Hi.
  assert (i = 1 ∨ i = 2 ∨ i = 3 ∨ i = 4 ∨ i = 5 ∨ i = 6 ∨ i = 7)
    as [-> | [-> | [-> | [-> | [-> | [-> | ->]]]]]] by lia;
    do 4 eexists;
    (split; [vm_compute; reflexivity |]);
    (split; [vm_compute; reflexivity |]);
    (split; [vm_compute; reflexivity |]);
    (split; [vm_compute; reflexivity |]);
    (split; vm_compute; reflexivity).
Qed.

Lemma timeline_rows_follow_phases_data_witness :
  ∃ name duration priority heading,
    phases_data !! 2 = Some (name, duration, priority)
    ∧ row_texts <$> timeline_rows (built_document w0) !! 3
      = Some [name; duration; priority]
    ∧ String.prefix ("Fase " +:+ pretty 3) name = true
    ∧ ps_heading <$> phase_sections (built_document w0) !! 2 = Some heading
    ∧ String.prefix ("Fase " +:+ pretty 3 +:+ ":") heading = true
    ∧ length (timeline_rows (built_document w0))
      = S (length (phase_sections (built_document w0))).
Proof. apply (timeline_rows_follow_phases_data w0 3). lia. Defined.

(** ** The build as a whole: frame and trace *)

Lemma built_document_frame (w : World) :
  built_document w = document_frame (month_year_stamp w) (date_time_stamp w).
Proof. vm_compute. reflexivity. Qed.

Lemma trace_replays (w : World) : replay (build_trace w) [] = built_document w.
Proof. vm_compute. reflexivity. Qed.

Lemma trace_disciplined (w : World) : disciplined 0 (build_trace w) = true.
Proof. vm_compute. reflexivity. Qed.

Lemma trace_appended (w : World) : appended (build_trace w) = length (built_document w).
Proof. vm_compute. reflexivity. Qed.

Lemma build_ignores_stdout out w :
  built_document (set_stdout out w) = built_document w
  ∧ build_trace (set_stdout out w) = build_trace w.
Proof. split; vm_compute; reflexivity. Qed.

Lemma create_run (w : World) :
  create_rag_improvement_document w = (inr TheDocument, after_build w).
Proof. vm_compute. reflexivity. Qed.

Ltac world_simpl :=
  cbn [w_now w_ticks w_body w_trace w_stdout w_cwd w_fs w_io w_disk
       set_stdout set_files set_ticks set_document after_build fst snd].

Lemma success_line :
  "✓ Documento creato con successo: " +:+ output_filename
  = "✓ Documento creato con successo: PIANO_MIGLIORAMENTO_RAG.docx".
Proof. reflexivity. Qed.

Lemma main_run (w : World) :
  main w =
  let target := (w_cwd w, output_filename) in
  let built := set_stdout (w_stdout w ++ [progress_line]) (after_build w) in
  let io := w_io w ++ [IoWrite target] in
  match w_disk w target with
  | IoDone =>
      (inr tt,
       set_stdout (w_stdout w ++ progress_line :: confirmation_lines)
         (set_files (<[target := DocxFile (built_document w)]> (w_fs w)) io built))
  | IoError e None => (inl e, set_files (w_fs w) io built)
  | IoError e (Some f) => (inl e, set_files (<[target := f]> (w_fs w)) io built)
  end.
Proof.
  unfold main. rewrite success_line.
  erewrite bind_inr by reflexivity.
  erewrite bind_inr by apply create_run.
  destruct (build_ignores_stdout
              (w_stdout w ++ ["Generazione del documento di miglioramento RAG..."]) w)
    as [Hdoc Htrace].
  unfold after_build. rewrite Hdoc, Htrace. clear Hdoc Htrace.
  generalize (built_document w) (build_trace w). intros doc tr.
  unfold mbind, Py_bind, save, print, set_stdout, set_files. world_simpl.
  cbv zeta.
  destruct (w_disk w (w_cwd w, output_filename)) as [| e [f |]]; world_simpl;
    [| reflexivity | reflexivity].
  unfold confirmation_lines, progress_line.
  by rewrite <- !app_assoc.
Qed.






(** *** The frame *)

Lemma frame_agreement {A} (pre mid : list A) (x y x' y' : A) (i : nat) :
  i ≠ length pre → i ≠ S (length pre + length mid) →
  (pre ++ x :: mid ++ [y]) !! i = (pre ++ x' :: mid ++ [y']) !! i.
Proof.
  intros Hx Hy.
  destruct (decide (i < length pre)) as [Hlt | Hge].
  { by rewrite !lookup_app_l. }
  rewrite !lookup_app_r by lia.
  destruct (i - length pre) as [| k] eqn:Hk; [lia |]. simpl.
  destruct (decide (k < length mid)) as [Hlt | Hge'].
  { by rewrite !lookup_app_l. }
  rewrite !lookup_app_r by lia.
  destruct (k - length mid) as [| k'] eqn:Hk'; [lia | done].
Qed.

Lemma frame_lengths : length frame_head = 1 ∧ length frame_middle = 160.
Proof. split; vm_compute; reflexivity. Qed.

Lemma frame_length a b : length (document_frame a b) = 163.
Proof.
  unfold document_frame. destruct frame_lengths as [Hh Hm].
  rewrite length_app, length_cons, length_app, Hh, Hm. reflexivity.
Qed.

Lemma frame_positions {A} (pre mid : list A) (x y : A) :
  (pre ++ x :: mid ++ [y]) !! length pre = Some x
  ∧ (pre ++ x :: mid ++ [y]) !! S (length pre + length mid) = Some y.
Proof.
  split; [by apply list_lookup_middle |].
  rewrite lookup_app_r by lia.
  replace (S (length pre + length mid) - length pre) with (S (length mid)) by lia.
  rewrite lookup_cons. by apply list_lookup_middle.
Qed.

Lemma frame_stamps a b :
  document_frame a b !! 1 = Some (subtitle_block a)
  ∧ document_frame a b !! 162 = Some (footer_block b).
Proof.
  unfold document_frame. destruct frame_lengths as [Hh Hm].
  pose proof (frame_positions frame_head frame_middle
                (subtitle_block a) (footer_block b)) as Hpos.
  revert Hh Hm Hpos. generalize frame_head frame_middle. intros pre mid Hh Hm.
  rewrite Hh, Hm. done.
Qed.

(** C3: two runs, in any two worlds, produce documents that are the same
    frame filled with two strings: they have the same length and the same
    element at every position but 1 (the subtitle, which embeds the month
    and year) and 162 (the footer, which embeds the date and time); those
    two differ in nothing but the embedded string; and nothing else of the
    world (files, directory, output, earlier clock readings) reaches the
    document. *)
Theorem runs_differ_only_in_timestamps (w1 w2 : World) :
  built_document w1 = document_frame (month_year_stamp w1) (date_time_stamp w1)
  ∧ built_document w2 = document_frame (month_year_stamp w2) (date_time_stamp w2)
  ∧ length (built_document w1) = length (built_document w2)
  ∧ (∀ i, i ≠ 1 → i ≠ 162 → built_document w1 !! i = built_document w2 !! i)
  ∧ built_document w1 !! 1 = Some (subtitle_block (month_year_stamp w1))
  ∧ built_document w1 !! 162 = Some (footer_block (date_time_stamp w1))
  ∧ (month_year_stamp w1 = month_year_stamp w2 →
     date_time_stamp w1 = date_time_stamp w2 →
     built_document w1 = built_document w2).
Proof.
  rewrite (built_document_frame w1), (built_document_frame w2).
  generalize (month_year_stamp w1) (date_time_stamp w1)
             (month_year_stamp w2) (date_time_stamp w2).
  intros a1 b1 a2 b2.
  split; [reflexivity |]. split; [reflexivity |].
  split; [by rewrite !frame_length |].
  split.
  { intros i H1 H162. unfold document_frame.
    destruct frame_lengths as [Hh Hm].
    apply frame_agreement; rewrite Hh, ?Hm; lia. }
  split; [exact (proj1 (frame_stamps a1 b1)) |].
  split; [exact (proj2 (frame_stamps a1 b1)) |].
  by intros -> ->.
Qed.

Lemma runs_differ_only_in_timestamps_witness :
  built_document w0 !! 7 = built_document w_home !! 7
  ∧ built_document w0 !! 1 = Some (subtitle_block "November 2026")
  ∧ built_document w_home !! 1 = Some (subtitle_block "March 2025").
Proof.
  destruct (runs_differ_only_in_timestamps w0 w_home) as (_ & _ & _ & Hsame & Hsub & _).
  destruct (runs_differ_only_in_timestamps w_home w0) as (_ & _ & _ & _ & Hsub' & _).
  split; [apply Hsame; lia |]. split; [exact Hsub | exact Hsub'].
Defined.

(** *** The trace discipline *)

Lemma disciplined_sound n tr :
  disciplined n tr = true →
  ∀ i e, tr !! i = Some e →
    match e with
    | EvAppend pos _ => pos = n + appended (take i tr)
    | EvMutate pos _ _ => S pos = n + appended (take i tr)
    end.
Proof.
  revert n. induction tr as [| e' tr IH]; intros n Hd i e Hi; [done |].
  destruct i as [| i].
  - injection Hi as <-. simpl in *.
    destruct e'; apply andb_prop in Hd as [Hpos _];
      apply bool_decide_eq_true_1 in Hpos; lia.
  - simpl in Hi.
    destruct e' as [pos b | pos old new]; simpl in Hd;
      apply andb_prop in Hd as [_ Hd];
      specialize (IH _ Hd i e Hi); destruct e; simpl; lia.
Qed.

Lemma appended_take_mono tr i j :
  i ≤ j → appended (take i tr) ≤ appended (take j tr).
Proof.
  revert i j. induction tr as [| e tr IH]; intros i j Hij.
  - by rewrite !take_nil.
  - destruct i as [| i]; [simpl; lia |].
    destruct j as [| j]; [lia |].
    specialize (IH i j ltac:(lia)). destruct e; simpl; lia.
Qed.

Lemma appended_take_all tr i : appended (take i tr) ≤ appended tr.
Proof.
  destruct (decide (i ≤ length tr)) as [Hle | Hgt].
  - rewrite <- (firstn_all tr) at 2. by apply appended_take_mono.
  - rewrite take_ge by lia. done.
Qed.

Lemma appended_take_S tr i pos b :
  tr !! i = Some (EvAppend pos b) →
  appended (take (S i) tr) = S (appended (take i tr)).
Proof.
  revert i. induction tr as [| e tr IH]; intros i Hi; [done |].
  destruct i as [| i].
  - injection Hi as ->. reflexivity.
  - specialize (IH i Hi). destruct e; simpl in *; lia.
Qed.

(** C7: elements appear in the document in the order the script appends
    them: an element appended later sits at a greater position, and every
    appended element is in the finished document. Elements are changed
    after they are created, but only the most recently appended one: once a
    later element has been appended, an earlier one is never changed. *)
Theorem elements_keep_program_order (w : World) :
  let tr := build_trace w in
  let doc := built_document w in
  replay tr [] = doc
  ∧ (∀ i j p q b b',
       i < j → tr !! i = Some (EvAppend p b) → tr !! j = Some (EvAppend q b') →
       p < q < length doc)
  ∧ (∀ i p old new,
       tr !! i = Some (EvMutate p old new) → S p = appended (take i tr))
  ∧ (∀ i j p q b old new,
       i < j → tr !! i = Some (EvAppend p b) → tr !! j = Some (EvMutate q old new) →
       p ≤ q).
Proof.
  cbv zeta.
  split; [apply trace_replays |].
  pose proof (disciplined_sound 0 (build_trace w) (trace_disciplined w)) as Hd.
  rewrite <- (trace_appended w).
  revert Hd. generalize (build_trace w) as tr. intros tr Hd.
  split; [| split].
  - intros i j p q b b' Hij Hi Hj.
    pose proof (Hd i _ Hi) as Hp. pose proof (Hd j _ Hj) as Hq. simpl in Hp, Hq.
    pose proof (appended_take_S tr i p b Hi) as HSi.
    pose proof (appended_take_S tr j q b' Hj) as HSj.
    pose proof (appended_take_mono tr (S i) j ltac:(lia)).
    pose proof (appended_take_all tr (S j)). lia.
  - intros i p old new Hi. exact (Hd i _ Hi).
  - intros i j p q b old new Hij Hi Hj.
    pose proof (Hd i _ Hi) as Hp. pose proof (Hd j _ Hj) as Hq. simpl in Hp, Hq.
    pose proof (appended_take_S tr i p b Hi) as HSi.
    pose proof (appended_take_mono tr (S i) j ltac:(lia)). lia.
Qed.

Lemma elements_keep_program_order_witness :
  build_trace w0 !! 0
  = Some (EvAppend 0 (BParagraph (new_paragraph "Piano di Miglioramento RAG Documentale"
                                                (Some "Title"))))
  ∧ build_trace w0 !! 2 = Some (EvAppend 1 spacer)
  ∧ 0 < 1 < length (built_document w0).
Proof.
  assert (H0 : build_trace w0 !! 0
    = Some (EvAppend 0 (BParagraph (new_paragraph "Piano di Miglioramento RAG Documentale"
                                                  (Some "Title")))))
    by (vm_compute; reflexivity).
  assert (H2 : build_trace w0 !! 2 = Some (EvAppend 1 spacer))
    by (vm_compute; reflexivity).
  split; [exact H0 |]. split; [exact H2 |].
  destruct (elements_keep_program_order w0) as (_ & Horder & _).
  apply (Horder 0 2 0 1 _ _ ltac:(lia) H0 H2).
Defined.

(** C7 as stated fails: the subtitle is appended as an empty paragraph
    (position 1) and is not that paragraph in the finished document, where
    it is centred and carries the dated run. *)
Lemma appended_element_is_changed_later :
  ∃ pos b,
    EvAppend pos b ∈ build_trace w0 ∧ built_document w0 !! pos ≠ Some b.
Proof.
  exists 1, spacer. split.
  - apply list_elem_of_lookup. exists 2. vm_compute. reflexivity.
  - vm_compute. discriminate.
Qed.



(** ** Beyond the run: the helpers on any document *)

(** *** Tidy traces *)


Lemma appended_app t1 t2 : appended (t1 ++ t2) = appended t1 + appended t2.
Proof.
  induction t1 as [| e t1 IH]; [done |].
  destruct e; simpl; by rewrite IH.
Qed.

Lemma disciplined_app n t1 t2 :
  disciplined n (t1 ++ t2)
  = disciplined n t1 && disciplined (n + appended t1) t2.
Proof.
  revert n. induction t1 as [| e t1 IH]; intros n.
  - simpl. by rewrite Nat.add_0_r.
  - destruct e; simpl; rewrite IH, <- andb_assoc; do 2 f_equal; f_equal; lia.
Qed.

Lemma leaves_alone_weaken n n' tr :
  n' ≤ n → leaves_alone n tr = true → leaves_alone n' tr = true.
Proof.
  intros Hle. unfold leaves_alone. rewrite !forallb_forall.
  intros H e He. specialize (H e He). destruct e; [done |].
  apply bool_decide_eq_true_1 in H. apply bool_decide_eq_true_2. lia.
Qed.

Lemma tidy_trace_nil n : tidy_trace n [] 0.
Proof. by repeat split. Qed.

Lemma tidy_trace_app n t1 k1 t2 k2 :
  tidy_trace n t1 k1 → tidy_trace (n + k1) t2 k2 → tidy_trace n (t1 ++ t2) (k1 + k2).
Proof.
  intros (Hd1 & Ha1 & Hl1) (Hd2 & Ha2 & Hl2). repeat split.
  - by rewrite disciplined_app, Hd1, Ha1, Hd2.
  - by rewrite appended_app, Ha1, Ha2.
  - unfold leaves_alone. rewrite forallb_app. fold (leaves_alone n t1).
    fold (leaves_alone n t2). rewrite Hl1.
    by rewrite (leaves_alone_weaken (n + k1) n t2 ltac:(lia) Hl2).
Qed.

Lemma tidy_trace_append n b : tidy_trace n [EvAppend n b] 1.
Proof. repeat split. simpl. by rewrite bool_decide_eq_true_2. Qed.

Lemma tidy_trace_append_mutate n b b' :
  tidy_trace n [EvAppend n b; EvMutate n b b'] 1.
Proof. repeat split; simpl; by rewrite !bool_decide_eq_true_2 by lia. Qed.

Lemma tidily_ret {A} (x : A) : appends_tidily (mret x) [].
Proof.
  intros w. exists x, []. split; [| apply tidy_trace_nil].
  destruct w. unfold mret, Py_ret, set_document. simpl. by rewrite !app_nil_r.
Qed.

Lemma tidily_bind {A B} (m : Py A) (k : A → Py B) b1 b2 :
  appends_tidily m b1 → (∀ x, appends_tidily (k x) b2) →
  appends_tidily (m ≫= k) (b1 ++ b2).
Proof.
  intros Hm Hk w.
  destruct (Hm w) as (x & tr1 & Hrun1 & Htidy1).
  edestruct (Hk x) as (y & tr2 & Hrun2 & Htidy2).
  exists y, (tr1 ++ tr2). split.
  - erewrite bind_inr by apply Hrun1. rewrite Hrun2. autorewrite with py.
    by rewrite <- !app_assoc.
  - autorewrite with py in Htidy2. rewrite length_app in *.
    by apply tidy_trace_app.
Qed.

Lemma tidily_add_paragraph doc text style :
  appends_tidily (add_paragraph doc text style)
                 [BParagraph (new_paragraph text style)].
Proof.
  intros w. eexists _, _. split; [apply add_paragraph_eq |].
  apply tidy_trace_append.
Qed.

Lemma tidily_indented_bullet doc item :
  appends_tidily
    (p ← add_paragraph doc item (Some "List Bullet"); set_left_indent p half_inch)
    [BParagraph (bullet_paragraph item (Some half_inch))].
Proof.
  intros w. eexists _, _. split; [apply indented_bullet |].
  apply tidy_trace_append_mutate.
Qed.

Lemma tidily_for_each {A} (items : list A) (body : A → Py unit) (block : A → Block) :
  (∀ item, appends_tidily (body item) [block item]) →
  appends_tidily (for_each items body) (block <$> items).
Proof.
  intros Hbody. induction items as [| item items IH].
  - apply tidily_ret.
  - simpl for_each. rewrite fmap_cons.
    apply (tidily_bind _ _ [_] _); [apply Hbody | intros _; exact IH].
Qed.

Lemma add_metrics_section_tidy doc metrics :
  appends_tidily (add_metrics_section doc metrics) (metrics_blocks metrics).
Proof.
  unfold add_metrics_section, metrics_blocks.
  apply (tidily_bind _ _ [_] _); [apply tidily_add_paragraph | intros _].
  apply tidily_bind.
  { apply tidily_for_each. intros item. apply tidily_indented_bullet. }
  intros _.
  apply (tidily_bind _ _ [_] []); [apply tidily_add_paragraph | intros _].
  apply tidily_ret.
Qed.

Lemma add_phase_tidy doc phase_number title description activities :
  appends_tidily (add_phase doc phase_number title description activities)
                 (phase_blocks phase_number title description activities).
Proof.
  assert (Htail : appends_tidily
            (add_paragraph doc "Attività principali:" (Some "Heading 3");;
             for_each activities (λ activity,
               p ← add_paragraph doc activity (Some "List Bullet");
               set_left_indent p (Inches (QArith_base.Qmake 1 2)));;
             add_paragraph doc "" None;; mret tt)
            (BParagraph (new_paragraph "Attività principali:" (Some "Heading 3"))
             :: bullets activities ++ [spacer])).
  { apply (tidily_bind _ _ [_] _); [apply tidily_add_paragraph | intros _].
    apply tidily_bind.
    { apply tidily_for_each. intros item. apply tidily_indented_bullet. }
    intros _.
    apply (tidily_bind _ _ [_] []); [apply tidily_add_paragraph | intros _].
    apply tidily_ret. }
  intros w. unfold add_phase.
  erewrite bind_inr; cycle 1.
  { apply add_heading_with_style_spec; [discriminate | lia]. }
  py_step add_paragraph_eq.
  py_step add_run_last.
  erewrite bind_inr; cycle 1.
  { unfold set_bold. apply modify_last_run; [reflexivity | by eexists]. }
  autorewrite with py.
  py_step add_run_last.
  edestruct Htail as (x & tr & Hrun & Htidy).
  rewrite Hrun. autorewrite with py. autorewrite with py in Htidy.
  eexists _, _. split.
  - unfold phase_blocks. rewrite <- !app_assoc. simpl. reflexivity.
  - clear Hrun Htail. rewrite !length_app in *. simpl length in *.
    destruct Htidy as (Hd & Ha & Hl). repeat split.
    + cbn [disciplined]. rewrite !bool_decide_eq_true_2 by lia. cbn [andb].
      replace (S (S (length (w_body w)))) with (length (w_body w) + 1 + 1) by lia.
      exact Hd.
    + cbn [appended]. rewrite Ha. unfold phase_blocks. simpl length.
      rewrite !length_app. simpl length. lia.
    + unfold leaves_alone. cbn [forallb].
      rewrite !bool_decide_eq_true_2 by lia. cbn [andb].
      apply (leaves_alone_weaken (length (w_body w) + 1 + 1)); [lia | exact Hl].
Qed.

(** *** Sections read locally *)

Lemma has_style_unique a c b : has_style a b = true → a ≠ c → has_style c b = false.
Proof.
  destruct b as [p | t]; [| done]. simpl. intros Ha Hne.
  apply bool_decide_eq_true_1 in Ha. apply bool_decide_eq_false_2.
  rewrite Ha. intros [= ?]. done.
Qed.

Lemma leading_bullets_cut l h rest :
  has_style "List Bullet" h = false →
  leading_bullets (l ++ h :: rest) = leading_bullets l.
Proof.
  intros Hh. induction l as [| b l IH].
  - simpl. by rewrite Hh.
  - rewrite <- app_comm_cons. cbn [leading_bullets]. by rewrite IH.
Qed.

Lemma bullets_under_cut label l h rest :
  has_style "Heading 2" h = true →
  bullets_under label (l ++ h :: rest) = bullets_under label l.
Proof.
  intros Hh. induction l as [| b l IH].
  - simpl. by rewrite Hh, orb_true_r.
  - rewrite <- app_comm_cons. cbn [bullets_under]. rewrite IH.
    rewrite leading_bullets_cut; [done |].
    apply (has_style_unique "Heading 2"); [exact Hh | discriminate].
Qed.

Lemma phase_sections_cut l h rest :
  has_style "Heading 2" h = true →
  phase_sections (l ++ h :: rest) = phase_sections l ++ phase_sections (h :: rest).
Proof.
  intros Hh. induction l as [| b l IH]; [done |].
  rewrite <- app_comm_cons. cbn [phase_sections].
  rewrite IH, !bullets_under_cut by exact Hh.
  by destruct (has_style "Heading 2" b).
Qed.

(** The blocks of a phase and its metrics, read after any document. *)
Lemma phase_sections_after body phase_number title description activities metrics rest :
  phase_sections (body ++ phase_blocks phase_number title description activities
                       ++ metrics_blocks metrics ++ rest)
  = phase_sections body
    ++ mkPhaseSection ("Fase " +:+ pretty phase_number +:+ ": " +:+ title)
                      activities metrics
       :: phase_sections rest.
Proof.
  rewrite <- (phase_read_back phase_number title description activities metrics rest).
  unfold phase_blocks. rewrite <- !app_comm_cons.
  apply phase_sections_cut. vm_compute. reflexivity.
Qed.

(** A phase with its metrics, appended to any document. *)
Lemma phase_appends_section doc phase_number title description activities metrics w :
  let blocks := phase_blocks phase_number title description activities
                ++ metrics_blocks metrics in
  ∃ tr,
    (add_phase doc phase_number title description activities;;
     add_metrics_section doc metrics) w
    = (inr tt, set_document (w_body w ++ blocks) (w_trace w ++ tr) w)
    ∧ phase_sections (w_body w ++ blocks)
      = phase_sections (w_body w)
        ++ [mkPhaseSection ("Fase " +:+ pretty phase_number +:+ ": " +:+ title)
                           activities metrics].
Proof.
  cbv zeta.
  destruct (add_phase_spec doc phase_number title description activities w)
    as [tr1 H1].
  edestruct (add_metrics_section_spec doc metrics) as [tr2 H2].
  exists (tr1 ++ tr2). split.
  - erewrite bind_inr by apply H1. rewrite H2. autorewrite with py.
    by rewrite <- !app_assoc.
  - pose proof (phase_sections_after (w_body w) phase_number title description
                  activities metrics []) as Hread.
    by rewrite app_nil_r in Hread.
Qed.

(** ** The helpers on any document *)



(** X2: on the empty text [add_heading_with_style] raises [IndexError] at
    [runs[0]], and it is not atomic: the heading, with no run, has already
    been appended to the document when the exception leaves. *)
Theorem empty_heading_raises_after_appending doc level w :
  (0 ≤ level ≤ 9)%Z →
  ∃ w',
    add_heading_with_style doc "" level w = (inl IndexError, w')
    ∧ w_body w'
      = w_body w ++ [BParagraph (mkParagraph (Some (heading_style level)) [] None None)].
Proof.
  intros Hlevel.
  unfold add_heading_with_style, add_heading. rewrite (decide_True _ _ Hlevel).
  py_unfold. rewrite add_paragraph_eq. cbv beta iota.
  unfold runs, read_par. py_unfold.
  erewrite read_block_last by reflexivity.
  eexists. split; reflexivity.
Qed.

Lemma empty_heading_raises_after_appending_witness :
  ∃ w',
    add_heading_with_style TheDocument "" 1 w0 = (inl IndexError, w')
    ∧ w_body w'
      = w_body w0 ++ [BParagraph (mkParagraph (Some (heading_style 1)) [] None None)].
Proof. apply (empty_heading_raises_after_appending TheDocument 1 w0). lia. Defined.

(** X3: with a level outside 0..9 [add_heading_with_style] raises
    [ValueError] (from [doc.add_heading]) and leaves the world as it was:
    nothing is appended. *)
Theorem bad_heading_level_raises doc text level w :
  (level < 0 ∨ 9 < level)%Z →
  add_heading_with_style doc text level w = (inl ValueError, w).
Proof.
  intros Hlevel. unfold add_heading_with_style, add_heading.
  rewrite decide_False by lia. reflexivity.
Qed.

Lemma bad_heading_level_raises_witness :
  add_heading_with_style TheDocument "Appendice" 10 w0 = (inl ValueError, w0).
Proof. apply (bad_heading_level_raises TheDocument "Appendice" 10 w0). lia. Defined.







Lemma tidy_trace_sound n tr k :
  tidy_trace n tr k →
  ∀ i e, tr !! i = Some e →
    match e with
    | EvAppend pos _ => pos = n + appended (take i tr)
    | EvMutate pos _ _ => S pos = n + appended (take i tr) ∧ n ≤ pos
    end.
Proof.
  intros (Hd & _ & Hl) i e Hi.
  pose proof (disciplined_sound n tr Hd i e Hi) as Hpos.
  destruct e as [pos b | pos old new]; [exact Hpos |].
  split; [exact Hpos |].
  unfold leaves_alone in Hl. rewrite forallb_forall in Hl.
  assert (Hin : In (EvMutate pos old new) tr)
    by (apply list_elem_of_In; by apply list_elem_of_lookup_2 with i).
  specialize (Hl _ Hin). simpl in Hl. by apply bool_decide_eq_true_1 in Hl.
Qed.



(** ** The build and the run *)





